(** * ndn-js: key generation parameters and forwarding flags

    A shallow embedding of [js/security/key-params.js] (the [KeyParams]
    constructors) and of the [ForwardingFlags] class, with the statements
    of their specification proved about the embedding. *)

From Stdlib Require Import ZArith Lia.
From Stdlib.Strings Require Import Byte.
From stdpp Require Import base numbers strings gmap.

Local Open Scope Z_scope.

(** ** Name.Component *)

Module Name.

(** Modelled from the spec: [Name.Component] of [name.js], the key id type
    ("a named, possibly-empty byte sequence").  [getValue] stands for
    [component.getValue()], the bytes of the component, and
    [length (getValue c)] for [component.getValue().size()]. *)
Record Component := { getValue : list byte }.

(** [new Name.Component()]: the component with no bytes. *)
Definition Component_new : Component := {| getValue := [] |}.

End Name.

(** ** The fragment of JavaScript the two files use *)

Module Js.

(** Objects with identity live in a store and are named by a location. *)
Definition loc := positive.

(** The values the model does not look into (strings, NaN and fractional
    numbers, objects of other classes) and what the language does with
    them where the sources use them: [ToBoolean] in a condition and the
    comparison [o == n] with a number. *)
Class Runtime := {
  Other : Type;
  Other_ToBoolean : Other -> bool;
  Other_eq_number : Other -> Z -> bool
}.

Section values.
Context `{Runtime}.

Inductive value :=
| VUndefined
| VNull
| VBool (b : bool)
| VNumber (n : Z)                      (* an integer-valued number *)
| VComponent (c : Name.Component)      (* an instance of Name.Component *)
| VForwardingFlags (l : loc)           (* a reference to a ForwardingFlags *)
| VOther (o : Other).

(** [if (v)] *)
Definition ToBoolean (v : value) : bool :=
  match v with
  | VUndefined | VNull => false
  | VBool b => b
  | VNumber n => negb (n =? 0)
  | VComponent _ | VForwardingFlags _ => true
  | VOther o => Other_ToBoolean o
  end.

(** [v == undefined]: true of [undefined] and [null] only. *)
Definition eq_undefined (v : value) : bool :=
  match v with
  | VUndefined | VNull => true
  | _ => false
  end.

(** [v == n] for a number [n].  A boolean is converted to 0 or 1; an
    object without [valueOf] and [toString] of its own converts to NaN.
    The constructors below never compare a [Name.Component].  For the
    other values the result is that of the runtime where the comparison
    returns: an object with no conversion to a primitive makes it throw a
    TypeError, which is left out here. *)
Definition eq_number (v : value) (n : Z) : bool :=
  match v with
  | VUndefined | VNull => false
  | VBool b => (if b then 1 else 0) =? n
  | VNumber m => m =? n
  | VComponent _ | VForwardingFlags _ => false
  | VOther o => Other_eq_number o n
  end.

End values.

(** The 32-bit signed integer the bit operators work on. *)
Definition ToInt32 (n : Z) : Z :=
  let m := n mod 2 ^ 32 in
  if 2 ^ 31 <=? m then m - 2 ^ 32 else m.

(** [a & b] and [a | b] on integer-valued numbers. *)
Definition bitand (a b : Z) : Z := Z.land (ToInt32 a) (ToInt32 b).
Definition bitor (a b : Z) : Z := Z.lor (ToInt32 a) (ToInt32 b).

(** [throw new Error(message)] *)
Inductive exception := Error (message : string).

(** How the evaluation of an expression ends. *)
Inductive completion (A : Type) :=
| Normal (a : A)
| Throw (e : exception).
Global Arguments Normal {A} a.
Global Arguments Throw {A} e.

(** A runtime whose only other value is NaN: falsy and equal to no number. *)
Definition NaN_only : Runtime :=
  {| Other := unit;
     Other_ToBoolean := fun _ => false;
     Other_eq_number := fun _ _ => false |}.

End Js.

Import Js.

(** ** ForwardingFlags *)

Module ForwardingFlags.

Section model.
Context `{Runtime}.

(** The three properties of a ForwardingFlags object.  A property never
    assigned reads as [undefined]. *)
Record object := { childInherit : value; capture : value; origin : value }.

Definition blank : object :=
  {| childInherit := VUndefined; capture := VUndefined; origin := VUndefined |}.

Global Instance object_inhabited : Inhabited object := populate blank.

(** Code that reads and assigns the properties of the objects in the
    store. *)
Definition M (A : Type) : Type := gmap loc object -> A * gmap loc object.

Global Instance M_ret : MRet M := fun A a σ => (a, σ).
Global Instance M_bind : MBind M :=
  fun A B f m σ => let '(a, σ') := m σ in f a σ'.

(** [l.childInherit], [l.capture], [l.origin] *)
Definition get (field : object -> value) (l : loc) : M value :=
  fun σ => (field (σ !!! l), σ).

(** [l.childInherit = v] *)
Definition set_childInherit (l : loc) (v : value) : M unit :=
  fun σ =>
    let o := σ !!! l in
    (tt, <[l := {| childInherit := v; capture := capture o; origin := origin o |}]> σ).

(** [l.capture = v] *)
Definition set_capture (l : loc) (v : value) : M unit :=
  fun σ =>
    let o := σ !!! l in
    (tt, <[l := {| childInherit := childInherit o; capture := v; origin := origin o |}]> σ).

(** [l.origin = v] *)
Definition set_origin (l : loc) (v : value) : M unit :=
  fun σ =>
    let o := σ !!! l in
    (tt, <[l := {| childInherit := childInherit o; capture := capture o; origin := v |}]> σ).

(** The object [new] creates before the constructor body runs. *)
Definition alloc : M loc :=
  fun σ => let l := fresh (dom σ) in (l, <[l := blank]> σ).

Definition NfdForwardingFlags_CHILD_INHERIT : Z := 1.
Definition NfdForwardingFlags_CAPTURE : Z := 2.

(** [new ForwardingFlags(value)] *)
Definition ForwardingFlags (value : Js.value) : M loc :=
  this ← alloc;
  match value with
  | VForwardingFlags value =>
      (* Make a copy. *)
      c ← get childInherit value; set_childInherit this c;;
      c ← get capture value; set_capture this c;;
      c ← get origin value; set_origin this c
  | _ =>
      set_childInherit this (VBool true);;
      set_capture this (VBool false);;
      set_origin this VNull
  end;;
  mret this.

(** [this.getNfdForwardingFlags()] *)
Definition getNfdForwardingFlags (this : loc) : M Z :=
  let result := 0 in
  c ← get childInherit this;
  let result :=
    if ToBoolean c then bitor result NfdForwardingFlags_CHILD_INHERIT
    else result in
  c ← get capture this;
  let result :=
    if ToBoolean c then bitor result NfdForwardingFlags_CAPTURE
    else result in
  mret result.

(** [this.setNfdForwardingFlags(nfdForwardingFlags)] *)
Definition setNfdForwardingFlags (this : loc) (nfdForwardingFlags : Z) : M loc :=
  set_childInherit this
    (VBool (negb (bitand nfdForwardingFlags NfdForwardingFlags_CHILD_INHERIT =? 0)));;
  set_capture this
    (VBool (negb (bitand nfdForwardingFlags NfdForwardingFlags_CAPTURE =? 0)));;
  mret this.

Definition getChildInherit (this : loc) : M value := get childInherit this.
Definition getCapture (this : loc) : M value := get capture this.
Definition getOrigin (this : loc) : M value := get origin this.

Definition setChildInherit (this : loc) (childInherit : value) : M loc :=
  set_childInherit this childInherit;; mret this.

Definition setCapture (this : loc) (capture : value) : M loc :=
  set_capture this capture;; mret this.

Definition setOrigin (this : loc) (origin : value) : M loc :=
  set_origin this origin;; mret this.

(** The calls that change a ForwardingFlags. *)
Inductive mutator :=
| SetNfdForwardingFlags (nfdForwardingFlags : Z)
| SetChildInherit (childInherit : value)
| SetCapture (capture : value)
| SetOrigin (origin : value).

Definition call (this : loc) (m : mutator) : M loc :=
  match m with
  | SetNfdForwardingFlags n => setNfdForwardingFlags this n
  | SetChildInherit v => setChildInherit this v
  | SetCapture v => setCapture this v
  | SetOrigin v => setOrigin this v
  end.

(** A sequence of calls on the same object, in order. *)
Fixpoint calls (this : loc) (ms : list mutator) : M unit :=
  match ms with
  | [] => mret tt
  | m :: ms => call this m;; calls this ms
  end.

End model.

End ForwardingFlags.

(** ** The enumerations key-params.js imports *)

Module KeyIdType.

(** The KeyIdType enumeration of [key-id-type.js], which is not among the
    sources: its three members are integers ("an int from the KeyIdType
    enum"), taken here as parameters. *)
Class enum := { USER_SPECIFIED : Z; SHA256 : Z; RANDOM : Z }.

End KeyIdType.

Module KeyType.

(** The KeyType enumeration of [security-types.js], which is not among the
    sources: integers as well ("an int from the KeyType enum"), taken as
    parameters. *)
Class enum := { RSA : Z; ECDSA : Z; AES : Z }.

End KeyType.

(** An assignment of the members, to run the constructors on. *)
Definition KeyIdType_values : KeyIdType.enum :=
  {| KeyIdType.USER_SPECIFIED := 0; KeyIdType.SHA256 := 1; KeyIdType.RANDOM := 2 |}.

Definition KeyType_values : KeyType.enum :=
  {| KeyType.RSA := 0; KeyType.ECDSA := 1; KeyType.AES := 128 |}.

(** ** KeyParams and its subclasses *)

Module KeyParams.

Section model.
Context `{Runtime} `{KeyIdType.enum} `{KeyType.enum}.

(** The properties of a KeyParams object, own or inherited. *)
Record object := {
  keyType_ : value;
  keyIdType_ : value;
  keyId_ : value;
  size_ : value
}.

Definition blank : object :=
  {| keyType_ := VUndefined; keyIdType_ := VUndefined;
     keyId_ := VUndefined; size_ := VUndefined |}.

(** The body of a constructor: it assigns properties of [this] and may
    throw, which leaves [this] as it is at that point. *)
Definition Ctor (A : Type) : Type := object -> completion A * object.

Global Instance Ctor_ret : MRet Ctor := fun A a this => (Normal a, this).
Global Instance Ctor_bind : MBind Ctor :=
  fun A B f m this =>
    match m this with
    | (Normal a, this') => f a this'
    | (Throw e, this') => (Throw e, this')
    end.

Definition throw {A} (e : exception) : Ctor A := fun this => (Throw e, this).

(** [this.keyType_ = v] *)
Definition set_keyType_ (v : value) : Ctor unit :=
  fun this =>
    (Normal tt, {| keyType_ := v; keyIdType_ := keyIdType_ this;
                   keyId_ := keyId_ this; size_ := size_ this |}).

(** [this.keyIdType_ = v] *)
Definition set_keyIdType_ (v : value) : Ctor unit :=
  fun this =>
    (Normal tt, {| keyType_ := keyType_ this; keyIdType_ := v;
                   keyId_ := keyId_ this; size_ := size_ this |}).

(** [this.keyId_ = v] *)
Definition set_keyId_ (v : value) : Ctor unit :=
  fun this =>
    (Normal tt, {| keyType_ := keyType_ this; keyIdType_ := keyIdType_ this;
                   keyId_ := v; size_ := size_ this |}).

(** [this.size_ = v] *)
Definition set_size_ (v : value) : Ctor unit :=
  fun this =>
    (Normal tt, {| keyType_ := keyType_ this; keyIdType_ := keyIdType_ this;
                   keyId_ := keyId_ this; size_ := v |}).

(** [KeyParams.call(this, keyType, keyIdTypeOrKeyId)] *)
Definition KeyParams (keyType keyIdTypeOrKeyId : value) : Ctor unit :=
  set_keyType_ keyType;;
  match keyIdTypeOrKeyId with
  | VComponent keyId =>
      if (length (Name.getValue keyId) =? 0)%nat then
        throw (Error "KeyParams: keyId is empty")
      else
        set_keyIdType_ (VNumber KeyIdType.USER_SPECIFIED);;
        set_keyId_ (VComponent keyId)
  | keyIdType =>
      if eq_number keyIdType KeyIdType.USER_SPECIFIED then
        throw (Error "KeyParams: KeyIdType is USER_SPECIFIED")
      else
        set_keyIdType_ keyIdType;;
        set_keyId_ (VComponent Name.Component_new)
  end.

Definition getKeyType (this : object) : value := keyType_ this.
Definition getKeyIdType (this : object) : value := keyIdType_ this.
Definition getKeyId (this : object) : value := keyId_ this.
Definition getKeySize (this : object) : value := size_ this.

(** [new F(arg1, arg2)], where [F.prototype] shows the properties
    [prototype]: the value of the expression is the object the body has
    filled in, or the exception, and then no object. *)
Definition new (F : value -> value -> Ctor unit) (prototype : object)
    (arg1 arg2 : value) : completion object :=
  match F arg1 arg2 prototype with
  | (Normal _, this) => Normal this
  | (Throw e, _) => Throw e
  end.

(** [new KeyParams()], the prototype of the three subclasses; with
    numbers for the members of KeyIdType its body does not throw. *)
Definition prototype : object := snd (KeyParams VUndefined VUndefined blank).

Definition RsaKeyParams_getDefaultSize : Z := 2048.
Definition RsaKeyParams_getType : Z := KeyType.RSA.

Definition RsaKeyParams (keyIdOrSize arg2 : value) : Ctor unit :=
  match keyIdOrSize with
  | VComponent keyId =>
      (* Call the base constructor. *)
      KeyParams (VNumber RsaKeyParams_getType) (VComponent keyId);;
      if eq_undefined arg2 then
        set_size_ (VNumber RsaKeyParams_getDefaultSize)
      else
        set_size_ arg2
  | size =>
      if negb (eq_undefined size) then
        let keyIdType :=
          if negb (eq_undefined arg2) then arg2
          else VNumber KeyIdType.RANDOM in
        KeyParams (VNumber RsaKeyParams_getType) keyIdType;;
        set_size_ size
      else
        KeyParams (VNumber RsaKeyParams_getType) (VNumber KeyIdType.RANDOM);;
        set_size_ (VNumber RsaKeyParams_getDefaultSize)
  end.

Definition EcdsaKeyParams_getDefaultSize : Z := 256.
Definition EcdsaKeyParams_getType : Z := KeyType.ECDSA.

Definition EcdsaKeyParams (keyIdOrSize arg2 : value) : Ctor unit :=
  match keyIdOrSize with
  | VComponent keyId =>
      KeyParams (VNumber EcdsaKeyParams_getType) (VComponent keyId);;
      if eq_undefined arg2 then
        set_size_ (VNumber EcdsaKeyParams_getDefaultSize)
      else
        set_size_ arg2
  | size =>
      if negb (eq_undefined size) then
        let keyIdType :=
          if negb (eq_undefined arg2) then arg2
          else VNumber KeyIdType.RANDOM in
        KeyParams (VNumber EcdsaKeyParams_getType) keyIdType;;
        set_size_ size
      else
        KeyParams (VNumber EcdsaKeyParams_getType) (VNumber KeyIdType.RANDOM);;
        set_size_ (VNumber EcdsaKeyParams_getDefaultSize)
  end.

Definition AesKeyParams_getDefaultSize : Z := 64.
Definition AesKeyParams_getType : Z := KeyType.AES.

Definition AesKeyParams (keyIdOrSize arg2 : value) : Ctor unit :=
  match keyIdOrSize with
  | VComponent keyId =>
      KeyParams (VNumber AesKeyParams_getType) (VComponent keyId);;
      if eq_undefined arg2 then
        set_size_ (VNumber AesKeyParams_getDefaultSize)
      else
        set_size_ arg2
  | size =>
      if negb (eq_undefined size) then
        let keyIdType :=
          if negb (eq_undefined arg2) then arg2
          else VNumber KeyIdType.RANDOM in
        KeyParams (VNumber AesKeyParams_getType) keyIdType;;
        set_size_ size
      else
        KeyParams (VNumber AesKeyParams_getType) (VNumber KeyIdType.RANDOM);;
        set_size_ (VNumber AesKeyParams_getDefaultSize)
  end.

(** The three subclasses, to state a property of each of them once. *)
Inductive variant := Rsa | Ecdsa | Aes.

Definition constructor (v : variant) : value -> value -> Ctor unit :=
  match v with
  | Rsa => RsaKeyParams
  | Ecdsa => EcdsaKeyParams
  | Aes => AesKeyParams
  end.

Definition getDefaultSize (v : variant) : Z :=
  match v with
  | Rsa => RsaKeyParams_getDefaultSize
  | Ecdsa => EcdsaKeyParams_getDefaultSize
  | Aes => AesKeyParams_getDefaultSize
  end.

Definition getType (v : variant) : Z :=
  match v with
  | Rsa => RsaKeyParams_getType
  | Ecdsa => EcdsaKeyParams_getType
  | Aes => AesKeyParams_getType
  end.

(** [new RsaKeyParams(arg1, arg2)] and the like. *)
Definition construct (v : variant) (arg1 arg2 : value) : completion object :=
  new (constructor v) prototype arg1 arg2.

(** The forms of the constructor its comment lists: a key id with an
    optional size, or an optional size with an optional KeyIdType. *)
Inductive form :=
| ByKeyId (keyId : Name.Component) (size : option Z)
| BySizePolicy (size : option Z) (keyIdType : option Z).

(** An argument left out is [undefined]. *)
Definition optional (n : option Z) : value :=
  match n with
  | Some n => VNumber n
  | None => VUndefined
  end.

Definition construct_form (v : variant) (f : form) : completion object :=
  match f with
  | ByKeyId keyId size => construct v (VComponent keyId) (optional size)
  | BySizePolicy size keyIdType => construct v (optional size) (optional keyIdType)
  end.

End model.

End KeyParams.

(** ** Sample data *)

Section samples.
Import KeyParams.
Local Existing Instances NaN_only KeyIdType_values KeyType_values.

(** A ForwardingFlags with capture set and an origin. *)
Definition flags_1 : ForwardingFlags.object :=
  {| ForwardingFlags.childInherit := VBool false;
     ForwardingFlags.capture := VBool true;
     ForwardingFlags.origin := VNumber 65 |}.

(** The key id "k1". *)
Definition key_1 : Name.Component := {| Name.getValue := [x6b; x31] |}.

(** What [new AesKeyParams(128, KeyIdType.SHA256)] returns. *)
Definition params_1 : object :=
  {| keyType_ := VNumber KeyType.AES;
     keyIdType_ := VNumber KeyIdType.SHA256;
     keyId_ := VComponent Name.Component_new;
     size_ := VNumber 128 |}.

End samples.

(** * Properties *)

(** ** The bit operators *)

Section bits.

Lemma ToInt32_mod n : ToInt32 n mod 2 ^ 32 = n mod 2 ^ 32.
Proof.
  unfold ToInt32. cbv zeta.
  destruct (2 ^ 31 <=? n mod 2 ^ 32).
  - rewrite Zminus_mod, Z_mod_same_full, Z.sub_0_r.
    now rewrite !Z.mod_mod by lia.
  - now rewrite Z.mod_mod by lia.
Qed.

Lemma ToInt32_testbit n i : 0 <= i < 32 -> Z.testbit (ToInt32 n) i = Z.testbit n i.
Proof.
  intros Hi.
  rewrite <- (Z.mod_pow2_bits_low (ToInt32 n) 32 i) by lia.
  rewrite ToInt32_mod. apply Z.mod_pow2_bits_low. lia.
Qed.

(** Masking with a single bit tests that bit. *)
Lemma land_bit x k : 0 <= k -> negb (Z.land x (2 ^ k) =? 0) = Z.testbit x k.
Proof.
  intros Hk.
  assert (Z.land x (2 ^ k) = if Z.testbit x k then 2 ^ k else 0) as ->.
  { apply Z.bits_inj'. intros i Hi.
    rewrite Z.land_spec, Z.pow2_bits_eqb by lia.
    destruct (Z.eqb_spec k i) as [->|Hne].
    - destruct (Z.testbit x i); [now rewrite Z.pow2_bits_true | now rewrite Z.bits_0].
    - rewrite andb_false_r.
      destruct (Z.testbit x k); [|now rewrite Z.bits_0].
      rewrite Z.pow2_bits_false; [reflexivity | lia]. }
  destruct (Z.testbit x k); [|reflexivity].
  assert (0 < 2 ^ k) by (apply Z.pow_pos_nonneg; lia).
  destruct (Z.eqb_spec (2 ^ k) 0); [lia | reflexivity].
Qed.

Lemma bitand_CHILD_INHERIT v : negb (bitand v 1 =? 0) = Z.testbit v 0.
Proof.
  unfold bitand. change (ToInt32 1) with (2 ^ 0).
  rewrite land_bit by lia. apply ToInt32_testbit. lia.
Qed.

Lemma bitand_CAPTURE v : negb (bitand v 2 =? 0) = Z.testbit v 1.
Proof.
  unfold bitand. change (ToInt32 2) with (2 ^ 1).
  rewrite land_bit by lia. apply ToInt32_testbit. lia.
Qed.

End bits.

(** ** ForwardingFlags *)

Section ForwardingFlags_properties.
Import ForwardingFlags.
Context `{Runtime}.
Implicit Types (σ : gmap loc object) (this f l : loc) (o : object).

Ltac run :=
  unfold ForwardingFlags, getNfdForwardingFlags, setNfdForwardingFlags,
    setChildInherit, setCapture, setOrigin, alloc, get,
    set_childInherit, set_capture, set_origin,
    mbind, M_bind, mret, M_ret;
  cbn beta iota zeta;
  rewrite ?lookup_total_insert_eq, ?insert_insert_eq;
  cbn [childInherit capture origin].

(** A property assigned on one object leaves the others as they are. *)
Lemma call_other σ l f (m : mutator) :
  l ≠ f -> snd (call l m σ) !! f = σ !! f.
Proof.
  intros Hne. destruct m; cbn [call]; run; cbn [snd];
    rewrite ?lookup_insert_ne by done; reflexivity.
Qed.

Lemma calls_other σ l f (ms : list mutator) :
  l ≠ f -> snd (calls l ms σ) !! f = σ !! f.
Proof.
  intros Hne. revert σ.
  induction ms as [|m ms IH]; intros σ; [reflexivity|].
  cbn [calls]. unfold mbind, M_bind.
  pose proof (call_other σ l f m Hne) as Hm.
  destruct (call l m σ) as [r σ']. cbn [snd] in Hm.
  rewrite IH. exact Hm.
Qed.

Lemma call_returns_this σ l (m : mutator) : fst (call l m σ) = l.
Proof. destruct m; reflexivity. Qed.

(** C1: whatever the store, [getNfdForwardingFlags()] returns
    [(childInherit ? 1 : 0) | (capture ? 2 : 0)] of the object it is called
    on and leaves the store as it is; that is 1, 2, 3 and 0 when the two
    flags are [true, false], [false, true], [true, true] and
    [false, false]. *)
Theorem getNfdForwardingFlags_spec σ this :
  getNfdForwardingFlags this σ =
    (bitor (if ToBoolean (childInherit (σ !!! this)) then 1 else 0)
           (if ToBoolean (capture (σ !!! this)) then 2 else 0), σ)
  ∧ ∀ (a b : bool) (v : value),
      let σ' := <[this := {| childInherit := VBool a; capture := VBool b;
                             origin := v |}]> σ in
      getNfdForwardingFlags this σ' =
        (match a, b with
         | true, false => 1
         | false, true => 2
         | true, true => 3
         | false, false => 0
         end, σ').
Proof.
  split.
  - run. destruct (ToBoolean _), (ToBoolean _); reflexivity.
  - intros a b v σ'. subst σ'. run. destruct a, b; reflexivity.
Qed.

(** C7: for every store and every integer [v], [setNfdForwardingFlags(v)]
    returns the object it is called on, having set its childInherit to
    [(v & 1) != 0] and its capture to [(v & 2) != 0], which are bit 0 and
    bit 1 of [v] whatever its other bits; origin is as it was, and so is
    every other object. *)
Theorem setNfdForwardingFlags_spec σ this (v : Z) :
  setNfdForwardingFlags this v σ =
    (this, <[this := {| childInherit := VBool (negb (bitand v 1 =? 0));
                        capture := VBool (negb (bitand v 2 =? 0));
                        origin := origin (σ !!! this) |}]> σ)
  ∧ negb (bitand v 1 =? 0) = Z.testbit v 0
  ∧ negb (bitand v 2 =? 0) = Z.testbit v 1.
Proof.
  split; [|split].
  - run. reflexivity.
  - apply bitand_CHILD_INHERIT.
  - apply bitand_CAPTURE.
Qed.

(** C2: for [v] from 0 to 3,
    [new ForwardingFlags().setNfdForwardingFlags(v).getNfdForwardingFlags()]
    is [v]. *)
Theorem NfdForwardingFlags_round_trip σ (v : Z) :
  0 <= v <= 3 ->
  fst ((f ← ForwardingFlags VUndefined;
        f ← setNfdForwardingFlags f v;
        getNfdForwardingFlags f) σ) = v.
Proof.
  intros Hv.
  assert (v = 0 ∨ v = 1 ∨ v = 2 ∨ v = 3) as [->|[->|[->| ->]]] by lia;
    run; reflexivity.
Qed.

(** C9: in every store, [new ForwardingFlags()] is a new object with
    childInherit [true], capture [false] and origin [null]; and for every
    ForwardingFlags [f] of the store, [new ForwardingFlags(f)] is a new
    object, other than [f], with the childInherit, capture and origin of
    [f], and no sequence of calls of the setters on it changes [f]. *)
Theorem ForwardingFlags_new σ :
  (∃ l, ForwardingFlags VUndefined σ =
          (l, <[l := {| childInherit := VBool true; capture := VBool false;
                        origin := VNull |}]> σ)
        ∧ σ !! l = None)
  ∧ ∀ f o, σ !! f = Some o ->
      ∃ l σ', ForwardingFlags (VForwardingFlags f) σ = (l, σ')
        ∧ l ≠ f
        ∧ σ !! l = None
        ∧ σ' !! l = Some o
        ∧ σ' !! f = Some o
        ∧ ∀ ms : list mutator, snd (calls l ms σ') !! f = Some o.
Proof.
  assert (σ !! fresh (dom σ) = None) as Hfresh
    by (apply not_elem_of_dom, is_fresh).
  split.
  - exists (fresh (dom σ)). split; [|exact Hfresh]. run. reflexivity.
  - intros f o Hf.
    assert (fresh (dom σ) ≠ f) as Hne
      by (intros Heq; rewrite Heq in Hfresh; congruence).
    eexists _, _. split; [run; reflexivity|].
    rewrite !lookup_total_insert_ne by done.
    rewrite (lookup_total_correct _ _ _ Hf).
    split; [exact Hne|]. split; [exact Hfresh|].
    split; [rewrite lookup_insert_eq; now destruct o|].
    split; [now rewrite lookup_insert_ne|].
    intros ms. rewrite calls_other by exact Hne. now rewrite lookup_insert_ne.
Qed.

End ForwardingFlags_properties.

(** ** KeyParams *)

Section KeyParams_properties.
Import KeyParams.
Context `{Runtime} `{KeyIdType.enum} `{KeyType.enum}.
Implicit Types (v : variant) (this : object) (keyId : Name.Component).

Ltac run :=
  unfold construct_form, construct, new, prototype;
  cbv [constructor RsaKeyParams EcdsaKeyParams AesKeyParams KeyParams.KeyParams
       set_keyType_ set_keyIdType_ set_keyId_ set_size_ throw
       mbind Ctor_bind mret Ctor_ret optional eq_undefined negb
       getKeyType getKeyIdType getKeyId getKeySize
       keyType_ keyIdType_ keyId_ size_ blank snd fst];
  cbn [eq_number].

Lemma nonempty_length keyId :
  Name.getValue keyId ≠ [] -> (length (Name.getValue keyId) =? 0)%nat = false.
Proof. destruct (Name.getValue keyId); [congruence | reflexivity]. Qed.

Lemma empty_length keyId :
  Name.getValue keyId = [] -> (length (Name.getValue keyId) =? 0)%nat = true.
Proof. now intros ->. Qed.

Lemma length_nonempty keyId :
  (length (Name.getValue keyId) =? 0)%nat = false -> Name.getValue keyId ≠ [].
Proof. now destruct (Name.getValue keyId). Qed.

Lemma RANDOM_eqb :
  KeyIdType.RANDOM ≠ KeyIdType.USER_SPECIFIED ->
  (KeyIdType.RANDOM =? KeyIdType.USER_SPECIFIED) = false.
Proof. intros Hne. now apply Z.eqb_neq. Qed.

(** The prototype of the subclasses is the object [new KeyParams()] makes. *)
Lemma prototype_eq :
  new KeyParams.KeyParams blank VUndefined VUndefined = Normal prototype
  ∧ prototype = {| keyType_ := VUndefined; keyIdType_ := VUndefined;
                   keyId_ := VComponent Name.Component_new;
                   size_ := VUndefined |}.
Proof. split; reflexivity. Qed.

(** With a key id first, the second argument is the size unless it is
    [undefined] or [null]. *)
Lemma construct_keyId v keyId (arg2 : value) :
  Name.getValue keyId ≠ [] ->
  construct v (VComponent keyId) arg2 =
    Normal {| keyType_ := VNumber (getType v);
              keyIdType_ := VNumber KeyIdType.USER_SPECIFIED;
              keyId_ := VComponent keyId;
              size_ := if eq_undefined arg2 then VNumber (getDefaultSize v)
                       else arg2 |}.
Proof.
  intros Hne%nonempty_length.
  destruct v; run; rewrite Hne; destruct arg2; reflexivity.
Qed.

(** With an empty key id first, the base constructor throws. *)
Lemma construct_empty v keyId (arg2 : value) :
  Name.getValue keyId = [] ->
  construct v (VComponent keyId) arg2 = Throw (Error "KeyParams: keyId is empty").
Proof.
  intros He%empty_length. destruct v; run; rewrite He; reflexivity.
Qed.

(** Without a first argument the second one is not looked at. *)
Lemma construct_undefined v (arg2 : value) :
  KeyIdType.RANDOM ≠ KeyIdType.USER_SPECIFIED ->
  construct v VUndefined arg2 =
    Normal {| keyType_ := VNumber (getType v);
              keyIdType_ := VNumber KeyIdType.RANDOM;
              keyId_ := VComponent Name.Component_new;
              size_ := VNumber (getDefaultSize v) |}.
Proof.
  intros Hne%RANDOM_eqb. destruct v; run; rewrite Hne; reflexivity.
Qed.

(** Invariant I1 on whatever the constructors are called with: the object
    made has either KeyIdType USER_SPECIFIED and a key id that is not
    empty, or a KeyIdType that does not compare equal to USER_SPECIFIED
    and the empty key id. *)
Lemma construct_invariant v (arg1 arg2 : value) this :
  construct v arg1 arg2 = Normal this ->
  (getKeyIdType this = VNumber KeyIdType.USER_SPECIFIED
     ∧ ∃ keyId, getKeyId this = VComponent keyId ∧ Name.getValue keyId ≠ [])
  ∨ (eq_number (getKeyIdType this) KeyIdType.USER_SPECIFIED = false
     ∧ getKeyId this = VComponent Name.Component_new).
Proof.
  destruct v, arg1, arg2; run;
    repeat match goal with
    | |- context [(length (Name.getValue ?c) =? 0)%nat] =>
        destruct (length (Name.getValue c) =? 0)%nat eqn:?
    | |- context [if ?b then _ else _] => destruct b eqn:?
    end;
    intros [= <-]; cbn [keyIdType_ keyId_];
    first [ left; split; [reflexivity|]; eexists; split; [reflexivity|];
            now apply length_nonempty
          | right; split; [assumption || reflexivity | reflexivity] ].
Qed.

(** C3: for each of the three subclasses, the constructor called with no
    argument returns an object with KeyIdType RANDOM, the default size of
    the subclass (2048 for RSA, 256 for ECDSA, 64 for AES) and its key
    type. *)
Theorem construct_no_arguments v :
  KeyIdType.RANDOM ≠ KeyIdType.USER_SPECIFIED ->
  (∃ this, construct v VUndefined VUndefined = Normal this
     ∧ getKeyIdType this = VNumber KeyIdType.RANDOM
     ∧ getKeySize this = VNumber (getDefaultSize v)
     ∧ getKeyType this = VNumber (getType v))
  ∧ (getDefaultSize v, getType v) =
      match v with
      | Rsa => (2048, KeyType.RSA)
      | Ecdsa => (256, KeyType.ECDSA)
      | Aes => (64, KeyType.AES)
      end.
Proof.
  intros Hne. split.
  - eexists. split; [apply construct_undefined, Hne|].
    repeat split.
  - destruct v; reflexivity.
Qed.

(** C4: for each subclass, the constructor called with a key id that is
    not empty returns an object with KeyIdType USER_SPECIFIED and that key
    id; its size is the size given, or the default size of the subclass
    when none is given. *)
Theorem construct_by_keyId v keyId (size : option Z) :
  Name.getValue keyId ≠ [] ->
  ∃ this, construct_form v (ByKeyId keyId size) = Normal this
    ∧ getKeyIdType this = VNumber KeyIdType.USER_SPECIFIED
    ∧ getKeyId this = VComponent keyId
    ∧ getKeySize this = VNumber (default (getDefaultSize v) size).
Proof.
  intros Hne. eexists. split.
  - cbn [construct_form]. apply construct_keyId, Hne.
  - repeat split. cbn [getKeySize size_]. now destruct size.
Qed.

(** C5: for each subclass, the constructor called with an empty key id
    throws the Error of KeyParams for it, whatever the second argument:
    the expression has no object for a value. *)
Theorem construct_empty_keyId v keyId (arg2 : value) :
  Name.getValue keyId = [] ->
  construct v (VComponent keyId) arg2 = Throw (Error "KeyParams: keyId is empty")
  ∧ ∀ this, construct v (VComponent keyId) arg2 ≠ Normal this.
Proof.
  intros He. rewrite (construct_empty v keyId arg2 He).
  split; [reflexivity | discriminate].
Qed.

(** C6, as the code has it: for each subclass, the constructor called
    with a size and with USER_SPECIFIED for the KeyIdType throws the Error
    of KeyParams for it. *)
Theorem construct_size_USER_SPECIFIED v (size : Z) :
  construct_form v (BySizePolicy (Some size) (Some KeyIdType.USER_SPECIFIED))
  = Throw (Error "KeyParams: KeyIdType is USER_SPECIFIED").
Proof. destruct v; run; rewrite Z.eqb_refl; reflexivity. Qed.

(** C8: an object made by any subclass from either form of the
    constructor has KeyIdType USER_SPECIFIED exactly when the form is the
    one with a key id, which is then not empty; when its KeyIdType is not
    USER_SPECIFIED its key id is the empty component. *)
Theorem keyIdType_USER_SPECIFIED_iff v (f : form) this :
  construct_form v f = Normal this ->
  (eq_number (getKeyIdType this) KeyIdType.USER_SPECIFIED = true
     ↔ ∃ keyId size, f = ByKeyId keyId size ∧ Name.getValue keyId ≠ [])
  ∧ (eq_number (getKeyIdType this) KeyIdType.USER_SPECIFIED = false ->
     getKeyId this = VComponent Name.Component_new).
Proof.
  intros Hnew. split.
  - destruct f as [keyId size | size keyIdType]; cbn [construct_form] in Hnew.
    + destruct (construct_invariant _ _ _ _ Hnew) as [[Ht [c [Hc Hne]]]|[Ht Hc]].
      * rewrite Ht. cbn [eq_number]. rewrite Z.eqb_refl.
        split; [intros _|reflexivity].
        exists keyId, size. split; [reflexivity|].
        destruct (Name.getValue keyId) eqn:He; [|discriminate].
        now rewrite construct_empty in Hnew.
      * exfalso.
        destruct (Name.getValue keyId) eqn:He.
        -- now rewrite construct_empty in Hnew.
        -- rewrite construct_keyId in Hnew by (rewrite He; discriminate).
           injection Hnew as <-. cbn [getKeyIdType keyIdType_ eq_number] in Ht.
           now rewrite Z.eqb_refl in Ht.
    + split; [|intros (? & ? & [=] & _)].
      intros Ht. exfalso.
      destruct (construct_invariant _ _ _ _ Hnew) as [[_ [c [Hc Hne]]]|[Ht' _]];
        [|congruence].
      revert Hnew Hc Hne. clear.
      destruct v, size, keyIdType; run;
        repeat match goal with
        | |- context [if ?b then _ else _] => destruct b
        end;
        intros [= <-]; cbn [keyId_]; intros [= <-]; now cbn.
  - intros Ht.
    destruct f as [keyId size | size keyIdType]; cbn [construct_form] in Hnew;
      destruct (construct_invariant _ _ _ _ Hnew) as [[Ht' _]|[_ Hc]];
      try exact Hc;
      rewrite Ht' in Ht; cbn [eq_number] in Ht; now rewrite Z.eqb_refl in Ht.
Qed.

(** C10: for each subclass, the constructor called with [undefined] first
    does not look at the second argument: whatever it is, the outcome is
    that of the call with no argument, an object with KeyIdType RANDOM, the
    default size of the subclass, the empty key id and its key type. *)
Theorem construct_without_size v (arg2 : value) :
  KeyIdType.RANDOM ≠ KeyIdType.USER_SPECIFIED ->
  construct v VUndefined arg2 = construct v VUndefined VUndefined
  ∧ ∃ this, construct v VUndefined arg2 = Normal this
      ∧ getKeyIdType this = VNumber KeyIdType.RANDOM
      ∧ getKeySize this = VNumber (getDefaultSize v)
      ∧ getKeyId this = VComponent Name.Component_new
      ∧ getKeyType this = VNumber (getType v).
Proof.
  intros Hne. split.
  - now rewrite !construct_undefined by exact Hne.
  - eexists. split; [apply construct_undefined, Hne|].
    repeat split.
Qed.

End KeyParams_properties.

(** ** The theorems at concrete inputs *)

Section instances.
Import KeyParams.
Local Existing Instances NaN_only KeyIdType_values KeyType_values.

Lemma NfdForwardingFlags_round_trip_2 :
  0 <= 2 <= 3
  ∧ fst ((f ← ForwardingFlags.ForwardingFlags VUndefined;
          f ← ForwardingFlags.setNfdForwardingFlags f 2;
          ForwardingFlags.getNfdForwardingFlags f) ∅) = 2.
Proof. split; [lia | apply (NfdForwardingFlags_round_trip ∅ 2); lia]. Defined.

Lemma ForwardingFlags_new_flags_1 :
  (∃ l, ForwardingFlags.ForwardingFlags VUndefined ∅ =
          (l, <[l := {| ForwardingFlags.childInherit := VBool true;
                        ForwardingFlags.capture := VBool false;
                        ForwardingFlags.origin := VNull |}]> ∅)
        ∧ (∅ : gmap loc ForwardingFlags.object) !! l = None)
  ∧ ({[3%positive := flags_1]} : gmap loc ForwardingFlags.object) !! 3%positive
      = Some flags_1
  ∧ ∃ l σ',
      ForwardingFlags.ForwardingFlags (VForwardingFlags 3%positive)
        {[3%positive := flags_1]} = (l, σ')
      ∧ l ≠ 3%positive
      ∧ σ' !! l = Some flags_1
      ∧ σ' !! 3%positive = Some flags_1
      ∧ ∀ ms, snd (ForwardingFlags.calls l ms σ') !! 3%positive = Some flags_1.
Proof.
  assert (({[3%positive := flags_1]} : gmap loc ForwardingFlags.object)
            !! 3%positive = Some flags_1) as Hf by reflexivity.
  split; [exact (proj1 (ForwardingFlags_new ∅))|].
  split; [exact Hf|].
  destruct (proj2 (ForwardingFlags_new _) _ _ Hf)
    as (l & σ' & Hnew & Hne & _ & Hl & Hf' & Hms).
  exists l, σ'. repeat split; assumption.
Defined.

Lemma construct_no_arguments_Rsa :
  KeyIdType.RANDOM ≠ KeyIdType.USER_SPECIFIED
  ∧ ∃ this, construct Rsa VUndefined VUndefined = Normal this
      ∧ getKeyIdType this = VNumber KeyIdType.RANDOM
      ∧ getKeySize this = VNumber 2048
      ∧ getKeyType this = VNumber KeyType.RSA.
Proof.
  assert (KeyIdType.RANDOM ≠ KeyIdType.USER_SPECIFIED) as Hne by discriminate.
  split; [exact Hne|]. exact (proj1 (construct_no_arguments Rsa Hne)).
Defined.

Lemma construct_by_keyId_Ecdsa :
  Name.getValue key_1 ≠ []
  ∧ ∃ this, construct_form Ecdsa (ByKeyId key_1 None) = Normal this
      ∧ getKeyIdType this = VNumber KeyIdType.USER_SPECIFIED
      ∧ getKeyId this = VComponent key_1
      ∧ getKeySize this = VNumber 256.
Proof.
  assert (Name.getValue key_1 ≠ []) as Hne by discriminate.
  split; [exact Hne|]. exact (construct_by_keyId Ecdsa key_1 None Hne).
Defined.

Lemma construct_empty_keyId_Aes :
  Name.getValue Name.Component_new = []
  ∧ construct Aes (VComponent Name.Component_new) (VNumber 128)
    = Throw (Error "KeyParams: keyId is empty").
Proof.
  split; [reflexivity|].
  exact (proj1 (construct_empty_keyId Aes Name.Component_new (VNumber 128) eq_refl)).
Defined.

Lemma keyIdType_USER_SPECIFIED_iff_Aes :
  construct_form Aes (BySizePolicy (Some 128) (Some KeyIdType.SHA256))
    = Normal params_1
  ∧ eq_number (getKeyIdType params_1) KeyIdType.USER_SPECIFIED = false
  ∧ getKeyId params_1 = VComponent Name.Component_new.
Proof.
  assert (construct_form Aes (BySizePolicy (Some 128) (Some KeyIdType.SHA256))
            = Normal params_1) as Hnew by reflexivity.
  split; [exact Hnew|]. split; [reflexivity|].
  exact (proj2 (keyIdType_USER_SPECIFIED_iff Aes _ params_1 Hnew) eq_refl).
Defined.

Lemma construct_without_size_USER_SPECIFIED :
  KeyIdType.RANDOM ≠ KeyIdType.USER_SPECIFIED
  ∧ construct Ecdsa VUndefined (VNumber KeyIdType.USER_SPECIFIED)
    = construct Ecdsa VUndefined VUndefined
  ∧ ∃ this, construct Ecdsa VUndefined (VNumber KeyIdType.USER_SPECIFIED) = Normal this
      ∧ getKeyIdType this = VNumber KeyIdType.RANDOM
      ∧ getKeySize this = VNumber 256
      ∧ getKeyId this = VComponent Name.Component_new
      ∧ getKeyType this = VNumber KeyType.ECDSA.
Proof.
  assert (KeyIdType.RANDOM ≠ KeyIdType.USER_SPECIFIED) as Hne by discriminate.
  split; [exact Hne|].
  exact (construct_without_size Ecdsa (VNumber KeyIdType.USER_SPECIFIED) Hne).
Defined.

(** C6 as the specification states it fails where the size is left out:
    [new RsaKeyParams(undefined, KeyIdType.USER_SPECIFIED)] throws nothing
    and returns the default parameters. *)
Lemma construct_USER_SPECIFIED_size_omitted :
  construct_form Rsa (BySizePolicy None (Some KeyIdType.USER_SPECIFIED))
    = Normal {| keyType_ := VNumber KeyType.RSA;
                keyIdType_ := VNumber KeyIdType.RANDOM;
                keyId_ := VComponent Name.Component_new;
                size_ := VNumber 2048 |}
  ∧ ¬ ∃ e, construct_form Rsa (BySizePolicy None (Some KeyIdType.USER_SPECIFIED))
           = Throw e.
Proof. split; [reflexivity | intros [e [=]]]. Qed.

End instances.

(** * Further properties of the code *)

(** ** ForwardingFlags: how the calls compose *)

Section ForwardingFlags_composition.
Import ForwardingFlags.
Context `{Runtime}.
Implicit Types (σ : gmap loc object) (this f l : loc) (o : object).

Ltac run :=
  unfold ForwardingFlags, getNfdForwardingFlags, setNfdForwardingFlags,
    getChildInherit, getCapture, getOrigin,
    setChildInherit, setCapture, setOrigin, alloc, get,
    set_childInherit, set_capture, set_origin,
    mbind, M_bind, mret, M_ret;
  cbn beta iota zeta;
  repeat first
    [ rewrite lookup_total_insert_eq
    | rewrite insert_insert_eq
    | progress cbn [childInherit capture origin fst snd] ].

(** The two low bits of an integer, as a number. *)
Lemma low_bits (v : Z) :
  Z.b2z (Z.testbit v 0) + 2 * Z.b2z (Z.testbit v 1) = v mod 4.
Proof.
  assert (Z.testbit v 1 = Z.testbit (v / 2) 0) as ->
    by (rewrite Z.div2_bits by lia; reflexivity).
  rewrite !Z.bit0_mod.
  pose proof (Z.div_mod v 2 ltac:(lia)).
  pose proof (Z.div_mod (v / 2) 2 ltac:(lia)).
  pose proof (Z.mod_pos_bound v 2 ltac:(lia)).
  pose proof (Z.mod_pos_bound (v / 2) 2 ltac:(lia)).
  apply Z.mod_unique_pos with (q := v / 2 / 2); lia.
Qed.

(** The integer a ForwardingFlags encodes to, flag by flag. *)
Lemma getNfdForwardingFlags_b2z σ this :
  getNfdForwardingFlags this σ =
    (Z.b2z (ToBoolean (childInherit (σ !!! this)))
     + 2 * Z.b2z (ToBoolean (capture (σ !!! this))), σ).
Proof. run. destruct (ToBoolean _), (ToBoolean _); reflexivity. Qed.

(** What the constructor does to the store: one new object, at a location
    that was free. *)
Lemma ForwardingFlags_store (value : Js.value) σ :
  ∃ o, ForwardingFlags value σ = (fresh (dom σ), <[fresh (dom σ) := o]> σ).
Proof. destruct value; run; eexists; reflexivity. Qed.

Lemma ForwardingFlags_copy_store σ f o :
  σ !! f = Some o ->
  ForwardingFlags (VForwardingFlags f) σ = (fresh (dom σ), <[fresh (dom σ) := o]> σ).
Proof.
  intros Hf.
  assert (fresh (dom σ) ≠ f) as Hne.
  { intros Heq. pose proof (is_fresh (dom σ)) as Hfresh.
    rewrite Heq in Hfresh. apply Hfresh, elem_of_dom. eauto. }
  run. rewrite !lookup_total_insert_ne by done.
  rewrite (lookup_total_correct _ _ _ Hf). now destruct o.
Qed.

Lemma fresh_lookup σ : σ !! fresh (dom σ) = None.
Proof. apply not_elem_of_dom, is_fresh. Qed.

(** X1: whatever the object held and whatever the integer [v], negative or
    wider than two bits, [setNfdForwardingFlags(v)] followed by
    [getNfdForwardingFlags()] returns [v mod 4], the two low bits of [v]. *)
Theorem getNfd_after_setNfd σ this (v : Z) :
  (f ← setNfdForwardingFlags this v; getNfdForwardingFlags f) σ
  = (v mod 4, snd (setNfdForwardingFlags this v σ)).
Proof.
  run. rewrite bitand_CHILD_INHERIT, bitand_CAPTURE, <- low_bits.
  destruct (Z.testbit v 0), (Z.testbit v 1); reflexivity.
Qed.

(** X2: [getNfdForwardingFlags()] returns an integer from 0 to 3 whatever
    values, booleans or not, the flags hold: no bit above bit 1 is set. *)
Theorem getNfdForwardingFlags_range σ this :
  0 <= fst (getNfdForwardingFlags this σ) <= 3.
Proof.
  rewrite getNfdForwardingFlags_b2z. cbn [fst].
  destruct (ToBoolean _), (ToBoolean _); cbn; lia.
Qed.

(** X3: [f.setNfdForwardingFlags(f.getNfdForwardingFlags())] replaces each
    flag by the boolean it counts as and keeps origin; on an object whose
    flags are booleans it changes nothing. *)
Theorem setNfd_after_getNfd σ this :
  (n ← getNfdForwardingFlags this; setNfdForwardingFlags this n) σ
  = (this, <[this := {| childInherit := VBool (ToBoolean (childInherit (σ !!! this)));
                        capture := VBool (ToBoolean (capture (σ !!! this)));
                        origin := origin (σ !!! this) |}]> σ)
  ∧ ∀ (a b : bool) (v : value),
      let σ' := <[this := {| childInherit := VBool a; capture := VBool b;
                             origin := v |}]> σ in
      (n ← getNfdForwardingFlags this; setNfdForwardingFlags this n) σ'
      = (this, σ').
Proof.
  split.
  - run. destruct (ToBoolean _), (ToBoolean _); reflexivity.
  - intros a b v σ'. subst σ'. run. destruct a, b; reflexivity.
Qed.

(** X4: a second [setNfdForwardingFlags] overrides the first: the object is
    as if only the last call had been made (so the call is idempotent). *)
Theorem setNfd_after_setNfd σ this (w v : Z) :
  (setNfdForwardingFlags this w;; setNfdForwardingFlags this v) σ
  = setNfdForwardingFlags this v σ.
Proof. run. reflexivity. Qed.

(** X5: each plain setter is read back by its getter and leaves the other
    two properties of the object as they were. *)
Theorem setters_getters σ this (x : value) :
  (fst ((setChildInherit this x;; getChildInherit this) σ) = x
   ∧ fst ((setChildInherit this x;; getCapture this) σ) = fst (getCapture this σ)
   ∧ fst ((setChildInherit this x;; getOrigin this) σ) = fst (getOrigin this σ))
  ∧ (fst ((setCapture this x;; getCapture this) σ) = x
     ∧ fst ((setCapture this x;; getChildInherit this) σ) = fst (getChildInherit this σ)
     ∧ fst ((setCapture this x;; getOrigin this) σ) = fst (getOrigin this σ))
  ∧ (fst ((setOrigin this x;; getOrigin this) σ) = x
     ∧ fst ((setOrigin this x;; getChildInherit this) σ) = fst (getChildInherit this σ)
     ∧ fst ((setOrigin this x;; getCapture this) σ) = fst (getCapture this σ)).
Proof. repeat split; run; reflexivity. Qed.

(** X6: the plain setters of different properties commute: either order
    leaves the same store. *)
Theorem setters_commute σ this (x y : value) :
  snd ((setChildInherit this x;; setCapture this y) σ)
    = snd ((setCapture this y;; setChildInherit this x) σ)
  ∧ snd ((setChildInherit this x;; setOrigin this y) σ)
    = snd ((setOrigin this y;; setChildInherit this x) σ)
  ∧ snd ((setCapture this x;; setOrigin this y) σ)
    = snd ((setOrigin this y;; setCapture this x) σ).
Proof. repeat split; run; reflexivity. Qed.

(** X7: the flags the plain setters store are encoded by their truth value,
    so a flag set to a value that is not a boolean counts as set when the
    value is truthy; the origin is not part of the encoding. *)
Theorem getNfd_after_setters σ this (x y : value) :
  fst ((setChildInherit this x;; setCapture this y;;
        getNfdForwardingFlags this) σ)
    = Z.b2z (ToBoolean x) + 2 * Z.b2z (ToBoolean y)
  ∧ fst ((setOrigin this x;; getNfdForwardingFlags this) σ)
    = fst (getNfdForwardingFlags this σ).
Proof.
  split; run.
  - destruct (ToBoolean x), (ToBoolean y); reflexivity.
  - reflexivity.
Qed.


(** X9: the constructor, copying or not, adds exactly one object to the
    store, at a location that held none, and leaves every object that was
    there as it was. *)
Theorem ForwardingFlags_allocates σ (value : Js.value) :
  σ !! fst (ForwardingFlags value σ) = None
  ∧ dom (snd (ForwardingFlags value σ))
    = {[fst (ForwardingFlags value σ)]} ∪ dom σ
  ∧ ∀ l, l ∈ dom σ -> snd (ForwardingFlags value σ) !! l = σ !! l.
Proof.
  destruct (ForwardingFlags_store value σ) as [o ->]. cbn [fst snd].
  split; [apply fresh_lookup|]. split; [apply dom_insert_L|].
  intros l Hl. apply lookup_insert_ne. intros <-.
  now apply (is_fresh (dom σ)).
Qed.

(** X10: no sequence of setter calls on the original changes the copy
    [new ForwardingFlags(f)] made of it. *)
Theorem copy_unchanged_by_original σ f o :
  σ !! f = Some o ->
  ∃ l σ', ForwardingFlags (VForwardingFlags f) σ = (l, σ')
    ∧ ∀ ms : list mutator, snd (calls f ms σ') !! l = Some o.
Proof.
  intros Hf. eexists _, _. split; [apply ForwardingFlags_copy_store, Hf|].
  intros ms. rewrite calls_other.
  - apply lookup_insert_eq.
  - intros Heq. pose proof (fresh_lookup σ) as Hfresh.
    rewrite <- Heq in Hfresh. congruence.
Qed.

(** X11: the copy encodes to the integer the original encodes to. *)
Theorem copy_getNfdForwardingFlags σ f o :
  σ !! f = Some o ->
  fst ((l ← ForwardingFlags (VForwardingFlags f); getNfdForwardingFlags l) σ)
  = fst (getNfdForwardingFlags f σ).
Proof.
  intros Hf. unfold mbind at 1. unfold M_bind.
  rewrite (ForwardingFlags_copy_store σ f o Hf).
  rewrite !getNfdForwardingFlags_b2z. cbn [fst].
  rewrite lookup_total_insert_eq, (lookup_total_correct _ _ _ Hf). reflexivity.
Qed.

(** X12: the setters create no object: called on an object of the store
    they leave the set of its locations as it was. *)
Theorem calls_dom σ l o (ms : list mutator) :
  σ !! l = Some o -> dom (snd (calls l ms σ)) = dom σ.
Proof.
  intros Hl. assert (l ∈ dom σ) as Hd by (apply elem_of_dom; eauto).
  clear Hl. revert σ Hd.
  induction ms as [|m ms IH]; intros σ Hl; [reflexivity|].
  cbn [calls]. unfold mbind, M_bind.
  assert (dom (snd (call l m σ)) = dom σ) as Hm.
  { destruct m; cbn [call]; run; apply dom_insert_lookup_L; now apply elem_of_dom. }
  destruct (call l m σ) as [r σ']. cbn [snd] in Hm.
  rewrite IH by (rewrite Hm; exact Hl). exact Hm.
Qed.

End ForwardingFlags_composition.

(** ** KeyParams: what the constructors accept and reject *)

Section KeyParams_arguments.
Import KeyParams.
Context `{Runtime} `{KeyIdType.enum} `{KeyType.enum}.
Implicit Types (v : variant) (this : object) (keyId : Name.Component).

Ltac run :=
  unfold construct_form, construct, new, prototype;
  cbv [constructor RsaKeyParams EcdsaKeyParams AesKeyParams KeyParams.KeyParams
       set_keyType_ set_keyIdType_ set_keyId_ set_size_ throw
       mbind Ctor_bind mret Ctor_ret optional eq_undefined negb
       getKeyType getKeyIdType getKeyId getKeySize
       keyType_ keyIdType_ keyId_ size_ blank snd fst];
  cbn [eq_number].

Ltac cases :=
  repeat match goal with
  | |- context [(length (Name.getValue ?c) =? 0)%nat] =>
      destruct (length (Name.getValue c) =? 0)%nat eqn:?
  | |- context [if ?b then _ else _] => destruct b eqn:?
  end.

(** X13: called with a size, and with a KeyIdType other than USER_SPECIFIED
    or none, each subclass returns an object with that size as it is given
    (zero and negative sizes included), the KeyIdType given or RANDOM, the
    empty key id and the key type of the subclass. *)
Theorem construct_by_size v (size : Z) (keyIdType : option Z) :
  default KeyIdType.RANDOM keyIdType ≠ KeyIdType.USER_SPECIFIED ->
  construct_form v (BySizePolicy (Some size) keyIdType)
  = Normal {| keyType_ := VNumber (getType v);
              keyIdType_ := VNumber (default KeyIdType.RANDOM keyIdType);
              keyId_ := VComponent Name.Component_new;
              size_ := VNumber size |}.
Proof.
  intros Hne%Z.eqb_neq.
  destruct v, keyIdType; cbn [default from_option id] in *; run;
    rewrite Hne; reflexivity.
Qed.

(** X14: over the forms of the constructor, and with RANDOM and
    USER_SPECIFIED different, a subclass constructor throws in two cases
    only: the form with an empty key id, with the Error for the key id, and
    the form with a size and USER_SPECIFIED, with the Error for the
    KeyIdType. *)
Theorem construct_form_throws v (f : form) (e : exception) :
  KeyIdType.RANDOM ≠ KeyIdType.USER_SPECIFIED ->
  construct_form v f = Throw e
  ↔ (∃ keyId size, f = ByKeyId keyId size ∧ Name.getValue keyId = []
       ∧ e = Error "KeyParams: keyId is empty")
    ∨ (∃ size, f = BySizePolicy (Some size) (Some KeyIdType.USER_SPECIFIED)
         ∧ e = Error "KeyParams: KeyIdType is USER_SPECIFIED").
Proof.
  intros Hne. split.
  - destruct f as [keyId size | [size|] keyIdType]; cbn [construct_form].
    + destruct (Name.getValue keyId) eqn:He.
      * rewrite construct_empty by exact He. intros [= <-].
        left. exists keyId, size. now rewrite He.
      * rewrite construct_keyId by (rewrite He; discriminate). discriminate.
    + destruct keyIdType as [k|].
      * destruct (Z.eq_dec k KeyIdType.USER_SPECIFIED) as [->|Hk].
        -- intros Hthrow. right. exists size. split; [reflexivity|].
           revert Hthrow. destruct v; run; rewrite Z.eqb_refl; now intros [= <-].
        -- apply Z.eqb_neq in Hk. destruct v; run; rewrite Hk; discriminate.
      * apply Z.eqb_neq in Hne. destruct v; run; rewrite Hne; discriminate.
    + cbn [optional]. rewrite construct_undefined by exact Hne. discriminate.
  - intros [(keyId & size & -> & He & ->)|(size & -> & ->)]; cbn [construct_form].
    + now apply construct_empty.
    + destruct v; run; rewrite Z.eqb_refl; reflexivity.
Qed.


(** X16: whatever values it was called with, the object a subclass
    constructor returns has the key type of the subclass, and for size an
    argument as it was given or the default: the second argument after a
    key id, the first one otherwise, unless that is [undefined] or [null]. *)
Theorem construct_keyType_size v (arg1 arg2 : value) this :
  construct v arg1 arg2 = Normal this ->
  getKeyType this = VNumber (getType v)
  ∧ getKeySize this =
      match arg1 with
      | VComponent _ =>
          if eq_undefined arg2 then VNumber (getDefaultSize v) else arg2
      | _ =>
          if eq_undefined arg1 then VNumber (getDefaultSize v) else arg1
      end.
Proof.
  destruct v, arg1, arg2; run; cases; intros [= <-]; split; reflexivity.
Qed.

(** X17: [null] is taken for a missing argument in either position. *)
Theorem construct_null v (arg1 arg2 : value) :
  construct v VNull arg2 = construct v VUndefined arg2
  ∧ construct v arg1 VNull = construct v arg1 VUndefined.
Proof. split; [destruct v | destruct v, arg1]; reflexivity. Qed.

(** X18: the three subclasses accept and reject the same arguments: on the
    same arguments they throw the same Error, or return objects with the
    same KeyIdType and key id whose sizes are equal or the two defaults. *)
Theorem construct_uniform v v' (arg1 arg2 : value) :
  match construct v arg1 arg2, construct v' arg1 arg2 with
  | Normal this, Normal this' =>
      getKeyIdType this = getKeyIdType this'
      ∧ getKeyId this = getKeyId this'
      ∧ (getKeySize this = getKeySize this'
         ∨ (getKeySize this = VNumber (getDefaultSize v)
            ∧ getKeySize this' = VNumber (getDefaultSize v')))
  | Throw e, Throw e' => e = e'
  | _, _ => False
  end.
Proof.
  destruct arg1, arg2; destruct v, v'; run; cases;
    first [ reflexivity
          | split; [reflexivity|]; split; [reflexivity|];
            first [ left; reflexivity | right; split; reflexivity ] ].
Qed.

(** X19: a Name.Component given second, after a size, is taken for the key
    id by the base constructor: the object has KeyIdType USER_SPECIFIED,
    that key id and the size, and an empty one is rejected. *)
Theorem construct_size_keyId v (size : Z) keyId :
  construct v (VNumber size) (VComponent keyId) =
    match Name.getValue keyId with
    | [] => Throw (Error "KeyParams: keyId is empty")
    | _ :: _ =>
        Normal {| keyType_ := VNumber (getType v);
                  keyIdType_ := VNumber KeyIdType.USER_SPECIFIED;
                  keyId_ := VComponent keyId;
                  size_ := VNumber size |}
    end.
Proof. destruct v; run; destruct (Name.getValue keyId); reflexivity. Qed.

(** X20: the base constructor, called on any object, assigns its keyType_
    before it checks the second argument and never assigns size_: when it
    throws, keyIdType_ and keyId_ are as they were. *)
Theorem KeyParams_assigns (keyType keyIdTypeOrKeyId : value) this :
  let r := KeyParams.KeyParams keyType keyIdTypeOrKeyId this in
  keyType_ (snd r) = keyType
  ∧ size_ (snd r) = size_ this
  ∧ ∀ e, fst r = Throw e ->
      keyIdType_ (snd r) = keyIdType_ this ∧ keyId_ (snd r) = keyId_ this.
Proof.
  destruct keyIdTypeOrKeyId; run; cases; repeat split; discriminate.
Qed.

End KeyParams_arguments.

(** ** The further properties at concrete inputs *)

Section more_instances.
Import KeyParams.
Local Existing Instances NaN_only KeyIdType_values KeyType_values.


Lemma copy_unchanged_by_original_flags_1 :
  ({[3%positive := flags_1]} : gmap loc ForwardingFlags.object) !! 3%positive
    = Some flags_1
  ∧ ∃ l σ',
      ForwardingFlags.ForwardingFlags (VForwardingFlags 3%positive)
        {[3%positive := flags_1]} = (l, σ')
      ∧ ∀ ms, snd (ForwardingFlags.calls 3%positive ms σ') !! l = Some flags_1.
Proof.
  assert (({[3%positive := flags_1]} : gmap loc ForwardingFlags.object)
            !! 3%positive = Some flags_1) as Hf by reflexivity.
  split; [exact Hf|]. exact (copy_unchanged_by_original _ _ _ Hf).
Defined.

Lemma copy_getNfdForwardingFlags_flags_1 :
  ({[3%positive := flags_1]} : gmap loc ForwardingFlags.object) !! 3%positive
    = Some flags_1
  ∧ fst ((l ← ForwardingFlags.ForwardingFlags (VForwardingFlags 3%positive);
          ForwardingFlags.getNfdForwardingFlags l) {[3%positive := flags_1]})
    = fst (ForwardingFlags.getNfdForwardingFlags 3%positive
             {[3%positive := flags_1]}).
Proof.
  assert (({[3%positive := flags_1]} : gmap loc ForwardingFlags.object)
            !! 3%positive = Some flags_1) as Hf by reflexivity.
  split; [exact Hf|]. exact (copy_getNfdForwardingFlags _ _ _ Hf).
Defined.

Lemma calls_dom_flags_1 :
  ({[3%positive := flags_1]} : gmap loc ForwardingFlags.object) !! 3%positive
    = Some flags_1
  ∧ dom (snd (ForwardingFlags.calls 3%positive
                [ForwardingFlags.SetNfdForwardingFlags 1;
                 ForwardingFlags.SetOrigin VNull]
                {[3%positive := flags_1]}))
    = dom ({[3%positive := flags_1]} : gmap loc ForwardingFlags.object).
Proof.
  assert (({[3%positive := flags_1]} : gmap loc ForwardingFlags.object)
            !! 3%positive = Some flags_1) as Hf by reflexivity.
  split; [exact Hf|]. exact (calls_dom _ _ _ _ Hf).
Defined.

Lemma construct_by_size_Aes :
  default KeyIdType.RANDOM (Some KeyIdType.RANDOM) ≠ KeyIdType.USER_SPECIFIED
  ∧ construct_form Aes (BySizePolicy (Some 128) (Some KeyIdType.RANDOM))
    = Normal {| keyType_ := VNumber KeyType.AES;
                keyIdType_ := VNumber KeyIdType.RANDOM;
                keyId_ := VComponent Name.Component_new;
                size_ := VNumber 128 |}.
Proof.
  assert (default KeyIdType.RANDOM (Some KeyIdType.RANDOM)
            ≠ KeyIdType.USER_SPECIFIED) as Hne by discriminate.
  split; [exact Hne|].
  exact (construct_by_size Aes 128 (Some KeyIdType.RANDOM) Hne).
Defined.

Lemma construct_form_throws_Rsa :
  KeyIdType.RANDOM ≠ KeyIdType.USER_SPECIFIED
  ∧ construct_form Rsa (BySizePolicy (Some 1024) (Some KeyIdType.USER_SPECIFIED))
    = Throw (Error "KeyParams: KeyIdType is USER_SPECIFIED").
Proof.
  assert (KeyIdType.RANDOM ≠ KeyIdType.USER_SPECIFIED) as Hne by discriminate.
  split; [exact Hne|].
  apply (construct_form_throws Rsa _ _ Hne).
  right. exists 1024. split; reflexivity.
Defined.


Lemma construct_keyType_size_Ecdsa :
  construct Ecdsa (VComponent key_1) (VNumber 384)
    = Normal {| keyType_ := VNumber KeyType.ECDSA;
                keyIdType_ := VNumber KeyIdType.USER_SPECIFIED;
                keyId_ := VComponent key_1;
                size_ := VNumber 384 |}
  ∧ getKeyType {| keyType_ := VNumber KeyType.ECDSA;
                  keyIdType_ := VNumber KeyIdType.USER_SPECIFIED;
                  keyId_ := VComponent key_1;
                  size_ := VNumber 384 |} = VNumber KeyType.ECDSA
  ∧ getKeySize {| keyType_ := VNumber KeyType.ECDSA;
                  keyIdType_ := VNumber KeyIdType.USER_SPECIFIED;
                  keyId_ := VComponent key_1;
                  size_ := VNumber 384 |} = VNumber 384.
Proof.
  assert (construct Ecdsa (VComponent key_1) (VNumber 384)
          = Normal {| keyType_ := VNumber KeyType.ECDSA;
                      keyIdType_ := VNumber KeyIdType.USER_SPECIFIED;
                      keyId_ := VComponent key_1;
                      size_ := VNumber 384 |}) as Hn by reflexivity.
  split; [exact Hn|]. exact (construct_keyType_size _ _ _ _ Hn).
Defined.

End more_instances.
